(** * Shallow embedding of the batch transcription engine of SP_TO_TXT

    Sources embedded:
    - [src/src/fast_whisper_service.py]  : [FastWhisperService] (module [FastWhisper])
    - [src/src/file_queue_processor.py]  : [FileQueueProcessor] (module [FQP])
    - [src/src/transformer.py], [src/src/app.py] : the HTTP endpoints (module [App])

    Python strings are modelled as [string]; a character of a [string]
    stands for one character of the Python text.  Times ([time.time()]
    readings, Python floats) are modelled as rationals [Q]; they are only
    added, subtracted and divided. *)

From Stdlib Require Import String Ascii List Bool Arith Lia QArith ZArith.
Import ListNotations.

Open Scope string_scope.

(** ** Python runtime helpers *)
Module Py.

(** Python exceptions that can reach the handlers of the embedded code. *)
Inductive exn :=
| ValueError (msg : string)
| OSError (msg : string)
| UnicodeEncodeError
| External (msg : string).   (* raised by an external collaborator *)

(** [str(e)] *)
Definition str_exn (e : exn) : string :=
  match e with
  | ValueError m | OSError m | External m => m
  | UnicodeEncodeError => "'utf-8' codec can't encode character: surrogates not allowed"
  end.

Inductive result (A : Type) :=
| Ok (a : A)
| Raise (e : exn).
Arguments Ok {A} a.
Arguments Raise {A} e.

Definition nl : string := String (ascii_of_nat 10) EmptyString.

(** Python truthiness of [Optional[str]]: [None] and [""] are false. *)
Definition truthy_opt (o : option string) : bool :=
  match o with
  | None => false
  | Some s => negb (String.eqb s "")
  end.

(** Characters removed by [str.strip()] (ASCII part of [str.isspace]). *)
Definition is_space (c : ascii) : bool :=
  let n := nat_of_ascii c in
  ((n =? 32) || ((9 <=? n) && (n <=? 13)) || ((28 <=? n) && (n <=? 31)))%nat.

Fixpoint lstrip (s : string) : string :=
  match s with
  | EmptyString => EmptyString
  | String c r => if is_space c then lstrip r else s
  end.

Fixpoint rstrip (s : string) : string :=
  match s with
  | EmptyString => EmptyString
  | String c r =>
      match rstrip r with
      | EmptyString => if is_space c then EmptyString else String c EmptyString
      | r' => String c r'
      end
  end.

(** [s.strip()] *)
Definition strip (s : string) : string := rstrip (lstrip s).

(** [s.lower()] on ASCII letters. *)
Definition lower_char (c : ascii) : ascii :=
  let n := nat_of_ascii c in
  if ((65 <=? n) && (n <=? 90))%nat then ascii_of_nat (n + 32) else c.

Fixpoint lower (s : string) : string :=
  match s with
  | EmptyString => EmptyString
  | String c r => String (lower_char c) (lower r)
  end.

(** [s.rpartition(c)] when [c] occurs: the text before and after the
    last occurrence of [c]; [None] when [c] does not occur. *)
Fixpoint rsplit_char (d : ascii) (s : string) : option (string * string) :=
  match s with
  | EmptyString => None
  | String c r =>
      match rsplit_char d r with
      | Some (b, a) => Some (String c b, a)
      | None => if Ascii.eqb c d then Some (EmptyString, r) else None
      end
  end.

Definition slash : ascii := "/"%char.
Definition dot : ascii := "."%char.

(** [os.path.basename] (POSIX): the text after the last ['/']. *)
Definition basename (p : string) : string :=
  match rsplit_char slash p with
  | Some (_, a) => a
  | None => p
  end.

Fixpoint has_non_dot (s : string) : bool :=
  match s with
  | EmptyString => false
  | String c r => negb (Ascii.eqb c dot) || has_non_dot r
  end.

(** [os.path.splitext] on a name without separators
    ([genericpath._splitext]): split at the last dot unless only dots
    precede it. *)
Definition splitext (name : string) : string * string :=
  match rsplit_char dot name with
  | Some (b, a) => if has_non_dot b then (b, String dot a) else (name, EmptyString)
  | None => (name, EmptyString)
  end.

(** [pathlib.PurePath(name).suffix] for a name without separators:
    [i = name.rfind('.')]; [name[i:]] if [0 < i < len(name) - 1]. *)
Definition suffix (name : string) : string :=
  match rsplit_char dot name with
  | Some (b, a) =>
      if negb (String.eqb b EmptyString) && negb (String.eqb a EmptyString)
      then String dot a else EmptyString
  | None => EmptyString
  end.

Definition ends_with_slash (s : string) : bool :=
  match rsplit_char slash s with
  | Some (_, a) => String.eqb a EmptyString
  | None => false
  end.

(** [os.path.join(a, b)] (POSIX, two arguments). *)
Definition join (a b : string) : string :=
  match b with
  | String c _ => if Ascii.eqb c slash then b
                  else if String.eqb a EmptyString || ends_with_slash a then a ++ b
                  else a ++ String slash b
  | EmptyString => if String.eqb a EmptyString || ends_with_slash a then a
                   else a ++ String slash EmptyString
  end.

(** ["=" * n] *)
Fixpoint repeat_str (s : string) (n : nat) : string :=
  match n with
  | O => EmptyString
  | S k => s ++ repeat_str s k
  end.

(** Decimal rendering of a natural number. *)
Fixpoint digits_aux (fuel n : nat) (acc : string) : string :=
  match fuel with
  | O => acc
  | S f =>
      let acc' := String (ascii_of_nat (48 + n mod 10)%nat) acc in
      if (n <? 10)%nat then acc' else digits_aux f (n / 10)%nat acc'
  end.

Definition string_of_nat (n : nat) : string := digits_aux (S n) n EmptyString.

(** [f"{x:.2f}"] for a non-negative duration. *)
Definition format_2f (q : Q) : string :=
  let c := Z.to_nat ((Qnum q * 100 + Z.pos (Qden q) / 2) / Z.pos (Qden q))%Z in
  let cents := (c mod 100)%nat in
  string_of_nat (c / 100)%nat ++ "." ++
    (if (cents <? 10)%nat then "0" else "") ++ string_of_nat cents.

(** Division of a float accumulator by an [int] counter. *)
Definition qdiv_nat (x : Q) (n : nat) : Q := Qdiv x (inject_Z (Z.of_nat n)).

End Py.

Import Py.

(** ** [fast_whisper_service.py]: the Resource Guard *)
Module FastWhisper.

(** The [WhisperModel] object, identified by its constructor arguments. *)
Record WhisperModel := mkWhisperModel {
  wm_size : string; wm_device : string; wm_compute_type : string }.

(** [self.stats] *)
Record Stats := mkStats {
  total_processed : nat;
  total_time : Q;
  errors : nat;
  average_time : Q }.

(** The singleton's mutable attributes. *)
Record Service := mkService {
  model : option WhisperModel;
  loading : bool;
  stats : Stats }.

Definition model_size := "small".
Definition compute_type := "int8".
Definition device := "cpu".

(** State after [__init__]. *)
Definition init : Service :=
  mkService None false (mkStats 0 0 0 0).

(** Observable events: a call of the expensive [WhisperModel(...)] constructor. *)
Inductive event := LoadAttempt.

(** [_load_model].  [available] is [FASTER_WHISPER_AVAILABLE] (fixed at
    import time); [ctor_ok] says whether the [WhisperModel(...)]
    constructor returns (true) or raises (false) if it is called.  The
    [while self._loading] wait observes [self.model] once [_loading] is
    cleared; in a sequential run [_loading] is only set inside the lock,
    so that branch returns the current model status.  Returns the
    boolean result, the new state and the constructor calls made. *)
Definition _load_model (available ctor_ok : bool) (s : Service)
  : bool * Service * list event :=
  match model s with
  | Some _ => (true, s, [])
  | None =>
    if negb available then (false, s, [])
    else
      (* with self._model_lock *)
      match model s with
      | Some _ => (true, s, [])
      | None =>
        if loading s then (match model s with Some _ => true | None => false end, s, [])
        else
          (* self._loading = True; try: ... finally: self._loading = False *)
          if ctor_ok
          then (true, mkService (Some (mkWhisperModel model_size device compute_type))
                                false (stats s), [LoadAttempt])
          else (false, mkService None false (stats s), [LoadAttempt])
      end
  end.

(** Behaviour of [self.model.transcribe(...)] and the iteration over
    its segment generator: the segment texts, or an exception
    (possibly after some segments were produced). *)
Inductive inference :=
| Segments (texts : list string)
| InferenceRaises (msg : string).

(** [transcription = ""; for segment in segments: transcription += segment.text + " "] *)
Definition collect (texts : list string) : string :=
  fold_left (fun acc t => acc ++ t ++ " ") texts "".

(** [transcribe(file_path)]; [t0], [t1] are the two [time.time()]
    readings around the inference. *)
Definition transcribe (available ctor_ok : bool) (inf : inference) (t0 t1 : Q)
           (s : Service) : (option string * option string) * Service * list event :=
  let '(ok, s1, ev) := _load_model available ctor_ok s in
  if negb ok then ((None, Some "Model not available"), s1, ev)
  else
    match inf with
    | Segments texts =>
        let transcription := strip (collect texts) in
        let process_time := Qminus t1 t0 in
        let st := stats s1 in
        let tp := S (total_processed st) in
        let tt := Qplus (total_time st) process_time in
        let st' := mkStats tp tt (errors st) (qdiv_nat tt tp) in
        ((Some transcription, None), mkService (model s1) (loading s1) st', ev)
    | InferenceRaises msg =>
        let st := stats s1 in
        let st' := mkStats (total_processed st) (total_time st) (S (errors st)) (average_time st) in
        ((None, Some msg), mkService (model s1) (loading s1) st', ev)
    end.

(** [is_ready()]: [self.model is not None or self._load_model()]. *)
Definition is_ready (available ctor_ok : bool) (s : Service) : bool * Service * list event :=
  match model s with
  | Some _ => (true, s, [])
  | None => _load_model available ctor_ok s
  end.

(** The dictionary returned by [get_stats()]. *)
Record StatsView := mkStatsView {
  model_loaded : bool;
  sv_model_size : string;
  sv_compute_type : string;
  sv_device : string;
  sv_total_processed : nat;
  sv_total_time : Q;
  sv_errors : nat;
  sv_average_time : Q }.

(** [get_stats()]: [{'model_loaded': self.model is not None, 'model_size', 'compute_type',
    'device', **self.stats}]. *)
Definition get_stats (s : Service) : StatsView :=
  mkStatsView (match model s with Some _ => true | None => false end)
              model_size compute_type device
              (total_processed (stats s)) (total_time (stats s))
              (errors (stats s)) (average_time (stats s)).

End FastWhisper.

(** ** [file_queue_processor.py]: the queue, the worker and the statistics *)
Module FQP.

(** A queue entry: [{'file_path', 'output_dir', 'added_at'}]. *)
Record WorkItem := mkItem {
  file_path : string;
  output_dir : string;
  added_at : Q }.

(** [self.stats] *)
Record Stats := mkStats {
  total_processed : nat;
  successful_processed : nat;
  failed_processed : nat;
  total_time : Q;
  current_file : option string;
  queue_size : nat }.

(** The processor's attributes; [queue] is the [queue.Queue] contents,
    oldest first; [processing_thread] records whether a thread was created. *)
Record Processor := mkProcessor {
  queue : list WorkItem;
  processing_thread : bool;
  is_running : bool;
  stats : Stats;
  default_output_dir : string }.

(** The part of the file system the processor touches. *)
Record FS := mkFS {
  fs_exists : string -> bool;                        (* os.path.exists, before any makedirs *)
  fs_walk : string -> list (string * list string);   (* os.walk(top): (root, files), traversal order *)
  fs_can_create : string -> bool;                    (* os.makedirs(d, exist_ok=True) succeeds *)
  fs_dirs : list string;                             (* directories made by makedirs *)
  fs_files : list (string * string) }.               (* files written: (path, content) *)

(** Everything the engine mutates: processor, shared model service, file system. *)
Record World := mkWorld {
  proc : Processor;
  svc : FastWhisper.Service;
  fs : FS }.

(** [FileQueueProcessor()]; [output_dir_env] is [os.getenv('OUTPUT_DIR')]. *)
Definition init_processor (output_dir_env : option string) : Processor :=
  mkProcessor [] false false (mkStats 0 0 0 0 None 0)
              (match output_dir_env with Some d => d | None => "./output" end).

Definition supported_extensions : list string :=
  [".ogg"; ".m4a"; ".wav"; ".mp3"; ".flac"; ".aac"; ".mp4"].

(** *** Record updates *)
Definition set_proc (p : Processor) (w : World) : World := mkWorld p (svc w) (fs w).
Definition set_svc (s : FastWhisper.Service) (w : World) : World := mkWorld (proc w) s (fs w).
Definition set_fs (f : FS) (w : World) : World := mkWorld (proc w) (svc w) f.

Definition set_stats (st : Stats) (p : Processor) : Processor :=
  mkProcessor (queue p) (processing_thread p) (is_running p) st (default_output_dir p).
Definition set_queue (q : list WorkItem) (p : Processor) : Processor :=
  mkProcessor q (processing_thread p) (is_running p) (stats p) (default_output_dir p).
Definition set_running (b : bool) (p : Processor) : Processor :=
  mkProcessor (queue p) (processing_thread p) b (stats p) (default_output_dir p).
Definition set_thread (p : Processor) : Processor :=
  mkProcessor (queue p) true (is_running p) (stats p) (default_output_dir p).

Definition map_stats (f : Stats -> Stats) (w : World) : World :=
  set_proc (set_stats (f (stats (proc w))) (proc w)) w.

Definition with_current_file (c : option string) (st : Stats) : Stats :=
  mkStats (total_processed st) (successful_processed st) (failed_processed st)
          (total_time st) c (queue_size st).
Definition with_queue_size (n : nat) (st : Stats) : Stats :=
  mkStats (total_processed st) (successful_processed st) (failed_processed st)
          (total_time st) (current_file st) n.

(** [total_processed += 1; successful_processed += 1; total_time += t] *)
Definition count_success (t : Q) (st : Stats) : Stats :=
  mkStats (S (total_processed st)) (S (successful_processed st)) (failed_processed st)
          (Qplus (total_time st) t) (current_file st) (queue_size st).
(** [total_processed += 1; failed_processed += 1] *)
Definition count_failure (st : Stats) : Stats :=
  mkStats (S (total_processed st)) (successful_processed st) (S (failed_processed st))
          (total_time st) (current_file st) (queue_size st).
(** [failed_processed += 1] (the worker loop's outer handler) *)
Definition count_loop_error (st : Stats) : Stats :=
  mkStats (total_processed st) (successful_processed st) (S (failed_processed st))
          (total_time st) (current_file st) (queue_size st).

(** [open(path, 'w')] and writes: the file's content is replaced. *)
Definition write_file (path content : string) (f : FS) : FS :=
  mkFS (fs_exists f) (fs_walk f) (fs_can_create f) (fs_dirs f)
       ((path, content) :: filter (fun pc => negb (String.eqb (fst pc) path)) (fs_files f)).

Definition path_exists (f : FS) (p : string) : bool :=
  fs_exists f p || existsb (String.eqb p) (fs_dirs f).

(** *** The exception-state monad of the Python code *)
Definition M (A : Type) := World -> World * result A.

Definition ret {A} (a : A) : M A := fun w => (w, Ok a).
Definition raise {A} (e : exn) : M A := fun w => (w, Raise e).
Definition bind {A B} (m : M A) (k : A -> M B) : M B :=
  fun w => let (w1, r) := m w in
           match r with Ok a => k a w1 | Raise e => (w1, Raise e) end.
Definition get_world : M World := fun w => (w, Ok w).
Definition modify (f : World -> World) : M unit := fun w => (f w, Ok tt).

Notation "x <- m ;; k" := (bind m (fun x => k)) (at level 61, m at next level, right associativity).
Notation "m ;; k" := (bind m (fun _ => k)) (at level 61, right associativity).

(** [try: m except Exception as e: h(e)] *)
Definition try_except {A} (m : M A) (h : exn -> M A) : M A :=
  fun w => let (w1, r) := m w in
           match r with Ok a => (w1, Ok a) | Raise e => h e w1 end.

(** [try: m finally: f] *)
Definition try_finally {A} (m : M A) (f : M unit) : M A :=
  fun w => let (w1, r) := m w in
           let (w2, r2) := f w1 in
           match r2 with Ok _ => (w2, r) | Raise e => (w2, Raise e) end.

(** What the collaborators outside [src/] do for one work item. *)
Inductive conversion :=
| Converted (wav_path : string)     (* convert_to_wav returns a path *)
| ConversionNone                    (* convert_to_wav returns None *)
| ConversionRaises (msg : string).  (* convert_to_wav raises *)

Record ItemEnv := mkEnv {
  env_conversion : conversion;
  env_ctor_ok : bool;                      (* WhisperModel(...) succeeds, if called *)
  env_inference : FastWhisper.inference;   (* self.model.transcribe(...) *)
  env_t_start : Q;                         (* time.time() readings, in call order *)
  env_t_infer_start : Q;
  env_t_infer_end : Q;
  env_t_end : Q;
  env_now : string;                        (* datetime.now().strftime(...) *)
  env_open_ok : bool }.                    (* open(output_path, 'w') succeeds *)

(** Text written to [<base>_transcription.txt]. *)
Definition transcription_content (file_path now transcription : string) : string :=
  "Source: " ++ file_path ++ nl ++
  "Processed: " ++ now ++ nl ++
  "Service: Faster-Whisper Queue Processor" ++ nl ++
  repeat_str "=" 60 ++ nl ++ nl ++
  transcription.

(** f-string rendering of an [Optional[str]]. *)
Definition opt_str (o : option string) : string :=
  match o with Some s => s | None => "None" end.

Section Engine.

(** Characters the encoding of [sys.stdout] can write. *)
Variable encodable : ascii -> bool.
(** [FASTER_WHISPER_AVAILABLE] *)
Variable FASTER_WHISPER_AVAILABLE : bool.
(** [time.time()] at enqueue time. *)
Variable time_now : Q.
(** Behaviour of the outside world for each work item. *)
Variable outside : WorkItem -> ItemEnv.

Fixpoint stdout_ok (s : string) : bool :=
  match s with
  | EmptyString => true
  | String c r => encodable c && stdout_ok r
  end.

(** [print(msg)]: raises [UnicodeEncodeError] (writing nothing) when
    stdout's encoding cannot represent the text. *)
Definition print (msg : string) : M unit :=
  if stdout_ok (msg ++ nl) then ret tt else raise UnicodeEncodeError.

(** [os.makedirs(d, exist_ok=True)] *)
Definition makedirs (d : string) : M unit :=
  fun w =>
    if path_exists (fs w) d then (w, Ok tt)
    else if fs_can_create (fs w) d then
      (set_fs (mkFS (fs_exists (fs w)) (fs_walk (fs w)) (fs_can_create (fs w))
                    (d :: fs_dirs (fs w)) (fs_files (fs w))) w, Ok tt)
    else (w, Raise (OSError ("cannot create directory: " ++ d))).

Definition start : M unit :=
  w <- get_world ;;
  if is_running (proc w) then ret tt
  else
    modify (fun w => set_proc (set_thread (set_running true (proc w))) w) ;;
    print "🔄 File queue processor started".

(** [stop()]: clears the flag; [join(timeout=5)] waits for the worker
    and changes nothing itself. *)
Definition stop : M unit :=
  modify (fun w => set_proc (set_running false (proc w)) w) ;;
  print "⏹️ File queue processor stopped".

Definition _find_audio_files (f : FS) (directory : string) : list string :=
  fold_left
    (fun acc entry =>
       let '(root, files) := entry in
       fold_left
         (fun acc file =>
            let file_path := join root file in
            let file_ext := lower (suffix file) in
            if existsb (String.eqb file_ext) supported_extensions
            then acc ++ [file_path] else acc)%list
         files acc)
    (fs_walk f directory) [].

Definition enqueue (it : WorkItem) (w : World) : World :=
  set_proc (set_queue (queue (proc w) ++ [it])%list (proc w)) w.

Definition update_queue_size (w : World) : World :=
  map_stats (with_queue_size (length (queue (proc w)))) w.

Definition add_directory (source_dir : string) (output_dir : option string)
  : M (option nat) :=
  w <- get_world ;;
  if negb (path_exists (fs w) source_dir)
  then raise (ValueError ("Source directory does not exist: " ++ source_dir))
  else
    let od := match output_dir with Some d => d | None => default_output_dir (proc w) end in
    makedirs od ;;
    w <- get_world ;;
    let audio_files := _find_audio_files (fs w) source_dir in
    match audio_files with
    | [] =>
        print ("⚠️ No audio files found in " ++ source_dir) ;;
        ret None
    | _ =>
        modify (fun w => fold_left (fun w af => enqueue (mkItem af od time_now) w)
                                   audio_files w) ;;
        modify update_queue_size ;;
        print ("📁 Added " ++ string_of_nat (length audio_files) ++ " files from "
               ++ source_dir ++ " to queue") ;;
        ret (Some (length audio_files))
    end.

Definition add_file (file_path : string) (output_dir : option string) : M unit :=
  w <- get_world ;;
  if negb (path_exists (fs w) file_path)
  then raise (ValueError ("File does not exist: " ++ file_path))
  else
    let od := match output_dir with Some d => d | None => default_output_dir (proc w) end in
    makedirs od ;;
    modify (enqueue (mkItem file_path od time_now)) ;;
    modify update_queue_size ;;
    print ("📄 Added file " ++ file_path ++ " to queue").

(** [convert_to_wav(file_path)] (external collaborator). *)
Definition convert_to_wav (env : ItemEnv) (file_path : string) : M (option string) :=
  match env_conversion env with
  | Converted p => ret (Some p)
  | ConversionNone => ret None
  | ConversionRaises m => raise (External m)
  end.

(** [whisper_service.transcribe(wav_file_path)] on the shared service. *)
Definition whisper_transcribe (env : ItemEnv) (wav_file_path : string)
  : M (option string * option string) :=
  fun w =>
    let '(r, s', _) :=
      FastWhisper.transcribe FASTER_WHISPER_AVAILABLE (env_ctor_ok env) (env_inference env)
                             (env_t_infer_start env) (env_t_infer_end env) (svc w) in
    (set_svc s' w, Ok r).

Definition output_path_of (file_path output_dir : string) : string :=
  let base_name := fst (splitext (basename file_path)) in
  let output_filename := base_name ++ "_transcription.txt" in
  join output_dir output_filename.

Definition _save_transcription (env : ItemEnv) (file_path transcription output_dir : string)
  : M unit :=
  let output_path := output_path_of file_path output_dir in
  if negb (env_open_ok env) then raise (OSError ("cannot open " ++ output_path))
  else
    modify (fun w => set_fs (write_file output_path
              (transcription_content file_path (env_now env) transcription) (fs w)) w) ;;
    print ("💾 Saved: " ++ output_path).

Definition _process_file (item : WorkItem) : M unit :=
  let file_path := file_path item in
  let output_dir := output_dir item in
  let env := outside item in
  let start_time := env_t_start env in
  let name := basename file_path in
  modify (map_stats (with_current_file (Some name))) ;;
  try_finally
    (try_except
       (print ("🎵 Processing: " ++ name) ;;
        wav <- convert_to_wav env file_path ;;
        match wav with
        | None => raise (ValueError "Failed to convert audio to WAV format")
        | Some wav_file_path =>
            r <- whisper_transcribe env wav_file_path ;;
            let '(transcription, error) := r in
            if truthy_opt error
            then raise (ValueError ("Transcription error: " ++ opt_str error))
            else if negb (truthy_opt transcription)
                    || negb (truthy_opt (option_map strip transcription))
            then raise (ValueError "Empty transcription result")
            else
              _save_transcription env file_path (opt_str transcription) output_dir ;;
              let process_time := Qminus (env_t_end env) start_time in
              modify (map_stats (count_success process_time)) ;;
              print ("✅ Processed: " ++ name ++ " (" ++ format_2f process_time ++ "s)")
        end)
       (fun e =>
          print ("❌ Failed to process " ++ name ++ ": " ++ str_exn e) ;;
          modify (map_stats count_failure)))
    (modify (map_stats (with_current_file None))).

(** One pass of [while self.is_running: try: ... except Exception: ...]. *)
Definition worker_iteration : M unit :=
  try_except
    (w <- get_world ;;
     match queue (proc w) with
     | [] => ret tt                       (* queue.Empty after the timeout: continue *)
     | item :: rest =>
         modify (fun w => set_proc (set_queue rest (proc w)) w) ;;
         modify update_queue_size ;;
         _process_file item                (* then queue.task_done() *)
     end)
    (fun e =>
       print ("❌ Error in queue processing: " ++ str_exn e) ;;
       modify (map_stats count_loop_error)).

(** [_process_queue], run for at most [fuel] passes of the loop.  A
    [Raise] result means an exception left the loop: the thread died. *)
Fixpoint _process_queue (fuel : nat) : M unit :=
  match fuel with
  | O => ret tt
  | S f =>
      w <- get_world ;;
      if negb (is_running (proc w)) then ret tt
      else worker_iteration ;; _process_queue f
  end.

(** [while not self.queue.empty(): self.queue.get_nowait()] *)
Fixpoint drain (q : list WorkItem) : list WorkItem :=
  match q with
  | [] => []
  | _ :: rest => drain rest
  end.

(** [clear_queue()] *)
Definition clear_queue : M unit :=
  modify (fun w => set_proc (set_queue (drain (queue (proc w))) (proc w)) w) ;;
  modify (map_stats (with_queue_size 0)) ;;
  print "🧹 Queue cleared".

  End Engine.


(** [get_status()] snapshot. *)
Record Snapshot := mkSnapshot {
  snap_is_running : bool;
  snap_queue_size : nat;
  snap_current_file : option string;
  snap_total_processed : nat;
  snap_successful_processed : nat;
  snap_failed_processed : nat;
  snap_total_time : Q;
  snap_average_time : Q }.

Definition get_status : M Snapshot :=
  fun w =>
    let p := proc w in
    let st := stats p in
    (w, Ok (mkSnapshot (is_running p) (length (queue p)) (current_file st)
                       (total_processed st) (successful_processed st) (failed_processed st)
                       (total_time st)
                       (if (0 <? total_processed st)%nat
                        then qdiv_nat (total_time st) (total_processed st) else 0))).

End FQP.

(** ** [transformer.py] and [app.py]: the HTTP layer over the engine *)
Module App.

(** Python values bound to the endpoint's variables: [handle_file_upload]
    returns [(filepath, filename)] as strings, or the pair
    [({"error": "No selected file"}, 400)]; [target_language] may be [None]. *)
Inductive pyval :=
| PStr (s : string)
| PInt (n : nat)
| PErrorDict (msg : string)   (* {"error": msg} *)
| PNone.

(** [str(v)] (f-string rendering). *)
Definition py_str (v : pyval) : string :=
  match v with
  | PStr s => s
  | PInt n => string_of_nat n
  | PErrorDict m => "{'error': '" ++ m ++ "'}"
  | PNone => "None"
  end.

Definition type_name (v : pyval) : string :=
  match v with
  | PStr _ => "str"
  | PInt _ => "int"
  | PErrorDict _ => "dict"
  | PNone => "NoneType"
  end.

(** Exceptions at the HTTP layer: those of the engine, [TypeError],
    [AttributeError] and FastAPI's [HTTPException]. *)
Inductive app_exn :=
| PyExn (e : exn)
| TypeError (msg : string)
| AttributeError (msg : string)
| HTTPException (status_code : nat) (detail : string).

(** [str(e)]; for [HTTPException] Starlette renders [f"{status_code}: {detail}"]. *)
Definition str_app_exn (e : app_exn) : string :=
  match e with
  | PyExn e => str_exn e
  | TypeError m | AttributeError m => m
  | HTTPException c d => string_of_nat c ++ ": " ++ d
  end.

(** The module-level [service_stats] dictionary. *)
Record ServiceStats := mkServiceStats {
  started_at : Q;
  total_requests : nat;
  successful_requests : nat;
  failed_requests : nat }.

(** The application's globals: [file_queue_processor] ([None] until
    startup), the [whisper_service] singleton with the constructor calls it
    has made, the file system and [service_stats]. *)
Record AppWorld := mkAppWorld {
  file_queue_processor : option FQP.Processor;
  whisper_service : FastWhisper.Service;
  service_events : list FastWhisper.event;
  app_fs : FQP.FS;
  service_stats : ServiceStats }.

Definition set_processor (p : option FQP.Processor) (aw : AppWorld) : AppWorld :=
  mkAppWorld p (whisper_service aw) (service_events aw) (app_fs aw) (service_stats aw).
Definition set_service (s : FastWhisper.Service) (ev : list FastWhisper.event) (aw : AppWorld)
  : AppWorld :=
  mkAppWorld (file_queue_processor aw) s (service_events aw ++ ev) (app_fs aw) (service_stats aw).
Definition set_app_fs (f : FQP.FS) (aw : AppWorld) : AppWorld :=
  mkAppWorld (file_queue_processor aw) (whisper_service aw) (service_events aw) f (service_stats aw).
Definition map_service_stats (g : ServiceStats -> ServiceStats) (aw : AppWorld) : AppWorld :=
  mkAppWorld (file_queue_processor aw) (whisper_service aw) (service_events aw) (app_fs aw)
             (g (service_stats aw)).

(** [service_stats['total_requests'] += 1] and its siblings. *)
Definition incr_total (st : ServiceStats) : ServiceStats :=
  mkServiceStats (started_at st) (S (total_requests st)) (successful_requests st) (failed_requests st).
Definition incr_successful (st : ServiceStats) : ServiceStats :=
  mkServiceStats (started_at st) (total_requests st) (S (successful_requests st)) (failed_requests st).
Definition incr_failed (st : ServiceStats) : ServiceStats :=
  mkServiceStats (started_at st) (total_requests st) (successful_requests st) (S (failed_requests st)).

(** *** The exception-state monad of the HTTP layer *)
Inductive aresult (A : Type) :=
| AOk (a : A)
| ARaise (e : app_exn).
Arguments AOk {A} a.
Arguments ARaise {A} e.

Definition AM (A : Type) := AppWorld -> AppWorld * aresult A.

Definition ret {A} (a : A) : AM A := fun aw => (aw, AOk a).
Definition raise {A} (e : app_exn) : AM A := fun aw => (aw, ARaise e).
Definition bind {A B} (m : AM A) (k : A -> AM B) : AM B :=
  fun aw => let (aw1, r) := m aw in
            match r with AOk a => k a aw1 | ARaise e => (aw1, ARaise e) end.
Definition get : AM AppWorld := fun aw => (aw, AOk aw).
Definition modify (f : AppWorld -> AppWorld) : AM unit := fun aw => (f aw, AOk tt).

Notation "x <- m ;; k" := (bind m (fun x => k)) (at level 61, m at next level, right associativity).
Notation "m ;; k" := (bind m (fun _ => k)) (at level 61, right associativity).

(** [try: m except Exception as e: h(e)] *)
Definition try_except {A} (m : AM A) (h : app_exn -> AM A) : AM A :=
  fun aw => let (aw1, r) := m aw in
            match r with AOk a => (aw1, AOk a) | ARaise e => h e aw1 end.

Definition of_result {A} (r : result A) : aresult A :=
  match r with Ok a => AOk a | Raise e => ARaise (PyExn e) end.

(** [file_queue_processor.<meth>(...)]: runs the method on the global
    processor, the shared service and the file system; on [None] the
    attribute lookup fails. *)
Definition on_fqp {A} (meth : string) (m : FQP.M A) : AM A :=
  fun aw =>
    match file_queue_processor aw with
    | None => (aw, ARaise (AttributeError ("'NoneType' object has no attribute '" ++ meth ++ "'")))
    | Some p =>
        let '(w', r) := m (FQP.mkWorld p (whisper_service aw) (app_fs aw)) in
        (mkAppWorld (Some (FQP.proc w')) (FQP.svc w') (service_events aw) (FQP.fs w')
                    (service_stats aw), of_result r)
    end.

(** [file_queue_processor.queue.qsize()] *)
Definition qsize (aw : AppWorld) : nat :=
  match file_queue_processor aw with Some p => length (FQP.queue p) | None => 0 end.

(** [int(s)] for base 10: surrounding whitespace, an optional sign, then
    digits with single underscores between digits. *)
Definition is_digit (c : ascii) : bool :=
  let n := nat_of_ascii c in ((48 <=? n) && (n <=? 57))%nat.

Fixpoint int_digits (s : string) (acc : Z) (after_digit : bool) : option Z :=
  match s with
  | EmptyString => if after_digit then Some acc else None
  | String c r =>
      if is_digit c then int_digits r (acc * 10 + Z.of_nat (nat_of_ascii c - 48))%Z true
      else if Ascii.eqb c "_"%char && after_digit then int_digits r acc false
      else None
  end.

Definition py_int (s : string) : option Z :=
  match strip s with
  | String c r =>
      if Ascii.eqb c "-"%char then option_map Z.opp (int_digits r 0 false)
      else if Ascii.eqb c "+"%char then int_digits r 0 false
      else int_digits (String c r) 0 false
  | EmptyString => None
  end.

(** [round(x, 2)]: to the nearest hundredth, ties to even. *)
Definition round2 (q : Q) : Q :=
  let n := (Qnum q * 100)%Z in
  let d := Z.pos (Qden q) in
  let fl := (n / d)%Z in
  let r := (n - fl * d)%Z in
  let k := match Z.compare (2 * r) d with
           | Lt => fl
           | Gt => (fl + 1)%Z
           | Eq => if Z.even fl then fl else (fl + 1)%Z
           end in
  Qmake k 100.

(** An upload: [file.filename] and the bytes [file.file.read()] returns. *)
Record UploadFile := mkUploadFile {
  filename : string;
  file_content : string }.

(** What the outside world does during one [/transcribe] request. *)
Record RequestEnv := mkRequestEnv {
  req_t_start : Q;                        (* time.time() at the start of the endpoint *)
  req_t_end : Q;                          (* time.time() before the response *)
  segment_name_env : option string;       (* os.getenv('SEGMENT_NAME') *)
  out_log_env : option string;            (* os.getenv('TRANSCRIPTION_OUT_LOG') *)
  upload_open_ok : bool;                  (* open(filepath, "wb") succeeds *)
  req_conversion : FQP.conversion;        (* convert_to_wav(file_path) *)
  req_ctor_ok : bool;                     (* WhisperModel(...) succeeds, if called *)
  req_inference : FastWhisper.inference;  (* self.model.transcribe(...) *)
  req_t_infer_start : Q;
  req_t_infer_end : Q }.

(** The [/transcribe] success response. *)
Record TranscribeResponse := mkTranscribeResponse {
  success : bool;
  translated_text : option string;
  processing_time : Q;
  resp_filename : pyval;
  resp_segment_number : string;
  resp_language : string }.

(** The [/queue/add] response. *)
Record QueueAddResponse := mkQueueAddResponse {
  qa_success : bool;
  qa_message : string;
  files_added : option nat;
  qa_queue_size : nat }.

(** The [/health] response. *)
Record Health := mkHealth {
  h_service : string;
  h_status : string;
  h_model_ready : bool;
  h_whisper_stats : FastWhisper.StatsView;
  h_service_stats : ServiceStats;
  h_uptime : Q }.

(** The [/] response. *)
Record RootInfo := mkRootInfo {
  r_service : string;
  r_version : string;
  r_status : string;
  r_model_ready : bool;
  r_uptime : Q }.

(** The [/stats] response. *)
Record StatsResponse := mkStatsResponse {
  s_service_stats : ServiceStats;
  s_whisper_stats : FastWhisper.StatsView;
  s_uptime : Q }.

(** [language and language.lower() not in ['auto', 'none', '']] decides
    [target_language = language.lower()]. *)
Definition language_choice (language : option string) : option string :=
  match language with
  | Some l =>
      if negb (String.eqb l "") && negb (existsb (String.eqb (lower l)) ["auto"; "none"; ""])
      then Some (lower l) else None
  | None => None
  end.

(** [generate_filename(segment_number, clientId)] *)
Definition generate_filename (segment_name_env : option string) (segment_number clientId : string)
  : string :=
  let segment_name := match segment_name_env with Some s => s | None => "segment" end in
  clientId ++ "_" ++ segment_name ++ "_" ++ segment_number ++ ".wav".

Section Http.

(** Characters the encoding of [sys.stdout] can write. *)
Variable encodable : ascii -> bool.
(** [FASTER_WHISPER_AVAILABLE] *)
Variable FASTER_WHISPER_AVAILABLE : bool.

Definition print (msg : string) : AM unit :=
  if FQP.stdout_ok encodable (msg ++ nl) then ret tt else raise (PyExn UnicodeEncodeError).

(** [os.makedirs(d, exist_ok=True)], the engine's model of it (it only
    touches the file system). *)
Definition makedirs (d : string) : AM unit :=
  fun aw =>
    let w := FQP.mkWorld (FQP.init_processor None) (whisper_service aw) (app_fs aw) in
    let '(w', r) := FQP.makedirs d w in
    (set_app_fs (FQP.fs w') aw, of_result r).

(** [os.remove(path)] *)
Definition remove_file (p : string) (f : FQP.FS) : FQP.FS :=
  FQP.mkFS (FQP.fs_exists f) (FQP.fs_walk f) (FQP.fs_can_create f) (FQP.fs_dirs f)
           (filter (fun pc => negb (String.eqb (fst pc) p)) (FQP.fs_files f)).

Definition os_remove (v : pyval) : AM unit :=
  match v with
  | PStr p =>
      fun aw =>
        if existsb (fun pc => String.eqb (fst pc) p) (FQP.fs_files (app_fs aw))
        then (set_app_fs (remove_file p (app_fs aw)) aw, AOk tt)
        else (aw, ARaise (PyExn (OSError ("[Errno 2] No such file or directory: '" ++ p ++ "'"))))
  | _ => raise (TypeError ("remove: path should be string, bytes or os.PathLike, not "
                           ++ type_name v))
  end.

(** [handle_file_upload(clientId, file, segment_number)] *)
Definition handle_file_upload (env : RequestEnv) (clientId : string) (file : UploadFile)
           (segment_number : string) : AM (pyval * pyval) :=
  if String.eqb (filename file) "" then ret (PErrorDict "No selected file", PInt 400)
  else
    let fname := generate_filename (segment_name_env env) segment_number clientId in
    let filepath := join "uploads" fname in
    makedirs "uploads" ;;
    (if negb (upload_open_ok env)
     then raise (PyExn (OSError ("cannot open " ++ filepath)))
     else modify (fun aw => set_app_fs (FQP.write_file filepath (file_content file) (app_fs aw)) aw)) ;;
    ret (PStr filepath, PStr fname).

(** [convert_to_wav(file_path)] (external collaborator). *)
Definition convert_to_wav (env : RequestEnv) (file_path : pyval) : AM (option string) :=
  match req_conversion env with
  | FQP.Converted p => ret (Some p)
  | FQP.ConversionNone => ret None
  | FQP.ConversionRaises m => raise (PyExn (External m))
  end.

(** [whisper_service.transcribe(wav_file_path)] *)
Definition whisper_transcribe (env : RequestEnv) (wav_file_path : string)
  : AM (option string * option string) :=
  fun aw =>
    let '(r, s', ev) :=
      FastWhisper.transcribe FASTER_WHISPER_AVAILABLE (req_ctor_ok env) (req_inference env)
                             (req_t_infer_start env) (req_t_infer_end env) (whisper_service aw) in
    (set_service s' ev aw, AOk r).

(** [transformer.transcribe_audio(file_path)] *)
Definition transcribe_audio (env : RequestEnv) (file_path : pyval)
  : AM (option string * option string) :=
  try_except
    (wav <- convert_to_wav env file_path ;;
     match wav with
     | None => ret (None, Some "Failed to convert audio to WAV format")
     | Some wav_file_path =>
         r <- whisper_transcribe env wav_file_path ;;
         let '(transcription, error) := r in
         if truthy_opt error
         then print ("Error in audio transcription: " ++ FQP.opt_str error) ;;
              ret (None, error)
         else ret (transcription, None)
     end)
    (fun e =>
       let error_msg := "Error in audio transcription: " ++ str_app_exn e in
       print error_msg ;;
       ret (None, Some error_msg)).

(** A call of [transcribe_audio], whose only parameter is [file_path],
    with the positional arguments [args]: Python binds the arguments
    before the body runs. *)
Definition call_transcribe_audio (env : RequestEnv) (args : list pyval)
  : AM (option string * option string) :=
  match args with
  | [file_path] => transcribe_audio env file_path
  | [] => raise (TypeError "transcribe_audio() missing 1 required positional argument: 'file_path'")
  | _ => raise (TypeError ("transcribe_audio() takes 1 positional argument but "
                           ++ string_of_nat (length args) ++ " were given"))
  end.

(** [POST /transcribe] *)
Definition transcribe_endpoint (env : RequestEnv) (file : UploadFile)
           (client_id segment_number : string) (language : option string)
  : AM TranscribeResponse :=
  let start_time := req_t_start env in
  modify (map_service_stats incr_total) ;;
  try_except
    (print ("🎵 Request - File: " ++ filename file ++ ", Client: " ++ client_id
            ++ ", Segment: " ++ segment_number) ;;
     u <- handle_file_upload env client_id file segment_number ;;
     let '(filepath, fname) := u in
     let target_language := language_choice language in
     (match target_language with
      | Some t => print ("🌍 Using specified language: " ++ t)
      | None => print "🌍 Using auto-detection"
      end) ;;
     r <- call_transcribe_audio env
            [filepath; match target_language with Some t => PStr t | None => PNone end] ;;
     let '(transcription, error) := r in
     if truthy_opt error
     then modify (map_service_stats incr_failed) ;;
          print ("❌ Transcription error: " ++ FQP.opt_str error) ;;
          raise (HTTPException 500 ("Transcription error: " ++ FQP.opt_str error))
     else
       let log_env := match out_log_env env with Some s => s | None => "0" end in
       log <- (match py_int log_env with
               | Some n => ret (Z.eqb n 1)
               | None => raise (PyExn (ValueError
                           ("invalid literal for int() with base 10: '" ++ log_env ++ "'")))
               end) ;;
       (if log
        then print ("📝 Client: " ++ client_id ++ ", File: " ++ py_str fname ++ ", Text: "
                    ++ FQP.opt_str transcription)
        else ret tt) ;;
       try_except (os_remove filepath)
         (fun cleanup_error =>
            print ("⚠️ Warning: Could not delete " ++ py_str filepath ++ ": "
                   ++ str_app_exn cleanup_error)) ;;
       modify (map_service_stats incr_successful) ;;
       let process_time := Qminus (req_t_end env) start_time in
       ret (mkTranscribeResponse true transcription (round2 process_time) fname segment_number
              (match target_language with Some t => t | None => "auto-detected" end)))
    (fun e =>
       match e with
       | HTTPException _ _ => raise e
       | _ =>
           modify (map_service_stats incr_failed) ;;
           print ("❌ Unexpected error: " ++ str_app_exn e) ;;
           raise (HTTPException 500 ("Internal server error: " ++ str_app_exn e))
       end).

(** [POST /update/]: the legacy endpoint delegates. *)
Definition transformation_flow (env : RequestEnv) (file : UploadFile)
           (clientId segment_number : string) (language : option string)
  : AM TranscribeResponse :=
  transcribe_endpoint env file clientId segment_number language.

(** [whisper_service.is_ready()] with the outcome [ctor_ok] of the
    constructor, if it is called. *)
Definition is_ready (ctor_ok : bool) : AM bool :=
  fun aw =>
    let '(b, s', ev) := FastWhisper.is_ready FASTER_WHISPER_AVAILABLE ctor_ok (whisper_service aw) in
    (set_service s' ev aw, AOk b).

(** [GET /]; [now] is the [time.time()] reading. *)
Definition root (ctor_ok : bool) (now : Q) : AM RootInfo :=
  ready <- is_ready ctor_ok ;;
  aw <- get ;;
  ret (mkRootInfo "Speech-to-Text Service" "2.0.0" "running" ready
                  (Qminus now (started_at (service_stats aw)))).

(** [GET /health]: the dictionary's values are evaluated in order, so
    [is_ready()] is called twice; [c1], [c2] are the constructor outcomes
    of the two calls. *)
Definition health_check (c1 c2 : bool) (now : Q) : AM Health :=
  r1 <- is_ready c1 ;;
  r2 <- is_ready c2 ;;
  aw <- get ;;
  ret (mkHealth "Speech-to-Text Service" (if r1 then "healthy" else "unhealthy") r2
                (FastWhisper.get_stats (whisper_service aw)) (service_stats aw)
                (Qminus now (started_at (service_stats aw)))).

(** [GET /stats] *)
Definition get_stats (now : Q) : AM StatsResponse :=
  aw <- get ;;
  ret (mkStatsResponse (service_stats aw) (FastWhisper.get_stats (whisper_service aw))
                       (Qminus now (started_at (service_stats aw)))).

(** [POST /queue/add]; [t] is [time.time()] during [add_directory]. *)
Definition add_to_queue (t : Q) (source_dir : string) (output_dir : option string)
  : AM QueueAddResponse :=
  aw <- get ;;
  match file_queue_processor aw with
  | None => raise (HTTPException 503 "File queue processor not available")
  | Some _ =>
      try_except
        (files_added <- on_fqp "add_directory"
                          (FQP.add_directory encodable t source_dir output_dir) ;;
         aw' <- get ;;
         ret (mkQueueAddResponse true ("Directory added to queue: " ++ source_dir)
                                 files_added (qsize aw')))
        (fun e => raise (HTTPException 500 ("Error adding to queue: " ++ str_app_exn e)))
  end.

(** [GET /queue/status] *)
Definition get_queue_status : AM FQP.Snapshot :=
  aw <- get ;;
  match file_queue_processor aw with
  | None => raise (HTTPException 503 "File queue processor not available")
  | Some _ => on_fqp "get_status" FQP.get_status
  end.

(** [startup_event()]; [output_dir_env] is [os.getenv('OUTPUT_DIR')]. *)
Definition startup_event (ctor_ok : bool) (output_dir_env : option string) : AM unit :=
  print "🚀 Starting Speech-to-Text Service..." ;;
  print "📥 Pre-loading whisper model..." ;;
  ready <- is_ready ctor_ok ;;
  (if ready then print "✅ Whisper model loaded successfully"
   else print "❌ Failed to load whisper model") ;;
  modify (set_processor (Some (FQP.init_processor output_dir_env))) ;;
  on_fqp "start" (FQP.start encodable) ;;
  print "✅ Service startup completed".

(** [shutdown_event()] *)
Definition shutdown_event : AM unit :=
  print "🛑 Shutting down Speech-to-Text Service..." ;;
  aw <- get ;;
  (match file_queue_processor aw with
   | Some _ => on_fqp "stop" (FQP.stop encodable)
   | None => ret tt
   end) ;;
  print "✅ Service shutdown completed".

End Http.

End App.

(** ** Concrete scenarios used by the evaluations below *)
Module Scenarios.
  Import FQP.

(** A strict UTF-8 [sys.stdout]: the only character it cannot write is
    the lone surrogate that [os.walk] produces (by [surrogateescape])
    for an undecodable file-name byte; [\255] stands for it. *)
Definition utf8_stdout (c : ascii) : bool := negb (Ascii.eqb c "255"%char).

Definition bad_byte_name : string := String "255"%char ".wav".

Definition env_ok : ItemEnv :=
  mkEnv (Converted "/tmp/converted.wav") true
        (FastWhisper.Segments [" Hello"; " world"]) 0 1 2 3 "2026-01-01 12:00:00" true.
Definition env_conversion_fails : ItemEnv :=
  mkEnv ConversionNone true (FastWhisper.Segments []) 0 1 2 3 "2026-01-01 12:00:00" true.

Definition fs0 : FS :=
  mkFS (fun p => String.eqb p "/in" || String.eqb p "/tmp/empty")
       (fun p => if String.eqb p "/tmp/empty" then [("/tmp/empty", ["notes.txt"])]
                 else if String.eqb p "/in" then [("/in", ["speech.wav"])] else [])
       (fun _ => true) ["/out"] [].

(** A started processor holding [q]. *)
Definition running_world (q : list WorkItem) : World :=
  mkWorld (mkProcessor q true true (mkStats 0 0 0 0 None (length q)) "./output")
          FastWhisper.init fs0.

(** A freshly constructed processor, [start()] not yet called. *)
Definition fresh_world : World := mkWorld (init_processor None) FastWhisper.init fs0.

Definition item (p : string) : WorkItem := mkItem p "/out" 0.

Definition five_items : list WorkItem :=
  map item ["/in/1.wav"; "/in/2.wav"; "/in/3.wav"; "/in/4.wav"; "/in/5.wav"].

(** Items 2 and 4 fail conversion. *)
Definition five_outside (it : WorkItem) : ItemEnv :=
  if String.eqb (file_path it) "/in/2.wav" || String.eqb (file_path it) "/in/4.wav"
  then env_conversion_fails else env_ok.

(** A recordings directory [/rec] holding [SPEECH.WAV], a directory whose
    name has an undecodable byte, and a directory [/readonly] that
    [os.makedirs] cannot create. *)
Definition bad_dir : string := "/in" ++ String "255"%char "".

Definition fs_rec : FS :=
  mkFS (fun p => String.eqb p "/rec" || String.eqb p "/rec/SPEECH.WAV" || String.eqb p bad_dir)
       (fun p => if String.eqb p "/rec" then [("/rec", ["SPEECH.WAV"])]
                 else if String.eqb p bad_dir then [(bad_dir, ["a.wav"])] else [])
       (fun p => negb (String.eqb p "/readonly")) [] [].


(** A processor holding [q] whose worker is not running. *)
Definition stopped_world (q : list WorkItem) : World :=
  mkWorld (mkProcessor q false false (mkStats 0 0 0 0 None (length q)) "./output")
          FastWhisper.init fs0.

(** The application before [startup_event], and with a processor set. *)
Definition app_world0 : App.AppWorld :=
  App.mkAppWorld None FastWhisper.init [] fs_rec (App.mkServiceStats 0 0 0 0).


Definition req_env_no_wav : App.RequestEnv :=
  App.mkRequestEnv 0 1 None None true ConversionNone true (FastWhisper.Segments []) 0 1.
Definition req_env_silent_error : App.RequestEnv :=
  App.mkRequestEnv 0 1 None None true (Converted "/tmp/clip.wav") true
                   (FastWhisper.InferenceRaises "") 0 1.


End Scenarios.

(** * Properties *)

Import FQP.

Local Arguments Qplus : simpl never.
Local Arguments Qminus : simpl never.
Local Arguments qdiv_nat : simpl never.
Local Arguments format_2f : simpl never.
Local Arguments strip : simpl never.
Local Arguments FastWhisper.collect : simpl never.
Local Arguments stdout_ok : simpl never.

Ltac split_all :=
  repeat match goal with
  | |- context [match ?x with _ => _ end] =>
      lazymatch x with
      | context [match _ with _ => _ end] => fail
      | _ => destruct x eqn:?
      end
  | H : context [match ?x with _ => _ end] |- _ =>
      lazymatch x with
      | context [match _ with _ => _ end] => fail
      | _ => destruct x eqn:?
      end
  end.

Section Effects.
Variable enc : ascii -> bool.
Variable avail : bool.

Lemma print_inv : forall msg w w' r,
  print enc msg w = (w', r) -> w' = w /\ (r = Ok tt \/ r = Raise UnicodeEncodeError).
Proof.
  unfold print, ret, raise; intros msg w w' r H.
  destruct (stdout_ok enc (msg ++ nl)); inversion H; subst; auto.
Qed.

Lemma convert_inv : forall env p w w' r,
  convert_to_wav env p w = (w', r) -> w' = w.
Proof.
  unfold convert_to_wav, ret, raise; intros env p w w' r H.
  destruct (env_conversion env); inversion H; subst; auto.
Qed.

Lemma whisper_transcribe_proc : forall env p w w' r,
  whisper_transcribe avail env p w = (w', r) -> proc w' = proc w.
Proof.
  unfold whisper_transcribe; intros env p w w' r H.
  destruct (FastWhisper.transcribe _ _ _ _ _ _) as [[r0 s'] ev]; inversion H; subst; reflexivity.
Qed.

Lemma save_proc : forall env fp t od w w' r,
  _save_transcription enc env fp t od w = (w', r) -> proc w' = proc w.
Proof.
  unfold _save_transcription, bind, modify, raise; intros env fp t od w w' r H.
  destruct (negb (env_open_ok env)).
  - inversion H; reflexivity.
  - destruct (print enc _ _) as [w2 r2] eqn:E; apply print_inv in E as [-> _].
    inversion H; reflexivity.
Qed.
End Effects.

Ltac inv_effects :=
  repeat match goal with
  | H : print _ _ _ = (_, _) |- _ => apply print_inv in H; destruct H as [? [? | ?]]; subst
  | H : convert_to_wav _ _ _ = (_, _) |- _ => apply convert_inv in H; subst
  | H : whisper_transcribe _ _ _ _ = (_, _) |- _ => apply whisper_transcribe_proc in H
  | H : _save_transcription _ _ _ _ _ _ = (_, _) |- _ => apply save_proc in H
  | H : raise _ _ = _ |- _ => unfold raise in H
  | H : ret _ _ = _ |- _ => unfold ret in H
  | H : (_, _) = (_, _) |- _ => inversion H; clear H; subst
  | H : Ok _ = Raise _ |- _ => discriminate H
  | H : Raise _ = Ok _ |- _ => discriminate H
  | H : Ok _ = Ok _ |- _ => inversion H; clear H; subst
  | H : Raise _ = Raise _ |- _ => inversion H; clear H; subst
  end.


Import Scenarios.


(** C1 (code bug): a file whose name holds an undecodable byte makes the
    per-item failure message unprintable; the exception leaves
    [_process_file] and the loop's outer handler counts a failure
    without counting the item as processed. *)
Theorem C1_outer_handler_breaks_counter_invariant :
  let w := running_world [item ("/in/" ++ bad_byte_name)] in
  let '(w', r) := _process_queue utf8_stdout true (fun _ => env_ok) 1 w in
  r = Ok tt /\
  total_processed (stats (proc w')) = 0%nat /\
  successful_processed (stats (proc w')) = 0%nat /\
  failed_processed (stats (proc w')) = 1%nat /\
  (successful_processed (stats (proc w')) + failed_processed (stats (proc w'))
     <> total_processed (stats (proc w')))%nat.
Proof. vm_compute. repeat split. discriminate. Qed.

(** C3 (code bug): on an existing directory without audio files
    [add_directory] returns [None] (the bare [return]), not the count [0];
    nothing is enqueued. *)
Theorem C3_empty_directory_returns_none :
  let '(w', r) := add_directory utf8_stdout 0 "/tmp/empty" (Some "/out") fresh_world in
  r = Ok None /\ r <> Ok (Some 0%nat) /\ queue (proc w') = [].
Proof. vm_compute. split; [reflexivity | split; [discriminate | reflexivity]]. Qed.

(** C4: for a path that does not exist, [add_directory] raises
    [ValueError("Source directory does not exist: ...")] and [add_file]
    raises [ValueError("File does not exist: ...")]; both leave the whole
    state (queue, statistics, created directories) untouched. *)
Theorem C4_missing_path_rejected_without_effect :
  forall enc t w p od,
  path_exists (fs w) p = false ->
  add_directory enc t p od w = (w, Raise (ValueError ("Source directory does not exist: " ++ p)))
  /\ add_file enc t p od w = (w, Raise (ValueError ("File does not exist: " ++ p))).
Proof.
  intros enc t w p od H.
  unfold add_directory, add_file, bind, get_world, raise.
  rewrite H. split; reflexivity.
Qed.

Lemma C4_witness :
  path_exists (fs fresh_world) "/no/such/path" = false /\
  add_directory utf8_stdout 0 "/no/such/path" None fresh_world
    = (fresh_world, Raise (ValueError ("Source directory does not exist: " ++ "/no/such/path")))
  /\ add_file utf8_stdout 0 "/no/such/path" None fresh_world
    = (fresh_world, Raise (ValueError ("File does not exist: " ++ "/no/such/path"))).
Proof.
  assert (H : path_exists (fs fresh_world) "/no/such/path" = false) by reflexivity.
  split; [exact H | apply (C4_missing_path_rejected_without_effect utf8_stdout 0 fresh_world "/no/such/path" None H)].
Defined.

(** C7 (counterexample): before [start()] is called, [get_status()]
    returns a snapshot (with [is_running = False]); it does not fail. *)
Lemma C7_status_before_start_succeeds :
  is_running (proc fresh_world) = false /\
  exists snap, get_status fresh_world = (fresh_world, Ok snap) /\ snap_is_running snap = false.
Proof. split; [reflexivity | eexists; split; reflexivity]. Qed.

(** C7 (amended): [get_status()] never fails and never changes the state,
    whether or not [start()] has been called; its [is_running] field is
    the processor's flag. *)
Theorem C7_get_status_always_succeeds :
  forall w, exists snap,
    get_status w = (w, Ok snap) /\ snap_is_running snap = is_running (proc w).
Proof. intros w. eexists. split; reflexivity. Qed.

Module GuardProofs.
  Import FastWhisper.

Lemma load_model_keeps_stats : forall a c s,
  stats (snd (fst (_load_model a c s))) = stats s.
Proof.
  intros a c s; unfold _load_model.
  destruct (model s); [reflexivity|].
  destruct a; [|reflexivity].
  destruct (loading s); [reflexivity|].
  destruct c; reflexivity.
Qed.

(** C6 (counterexample): when [faster_whisper] could not be imported,
    the failed [_load_model] call is followed by calls that fail again
    without attempting a load, even if the constructor would now succeed. *)
Lemma C6_unavailable_library_is_not_retried :
  let '(r1, s1, ev1) := _load_model false true init in
  let '(r2, s2, ev2) := _load_model false true s1 in
  r1 = false /\ ev1 = [] /\ r2 = false /\ ev2 = [] /\ model s2 = None.
Proof. repeat split. Qed.

(** C6 (amended): when [faster_whisper] is importable, a failed load
    leaves no model and the [_loading] flag cleared; from such a state
    every call performs a fresh constructor call and returns its
    outcome, and after a successful one the model is ready and later
    calls return [True] without loading.  When it is not importable,
    every call returns [False] without a load attempt. *)
Theorem C6_failed_load_retried_when_library_available :
  (forall c s, loading s = false ->
     let '(r, s', _) := _load_model true c s in
     r = false -> model s' = None /\ loading s' = false)
  /\ (forall c s, model s = None -> loading s = false ->
     let '(r, s', ev) := _load_model true c s in
     ev = [LoadAttempt] /\ r = c /\ loading s' = false /\
     (c = true -> model s' <> None /\
        forall c', _load_model true c' s' = (true, s', [])))
  /\ (forall c s, model s = None -> _load_model false c s = (false, s, [])).
Proof.
  split; [|split].
  - intros c s Hl. unfold _load_model.
    destruct (model s); [discriminate|].
    rewrite Hl. destruct c; [discriminate|]. split; reflexivity.
  - intros c s Hm Hl. unfold _load_model. rewrite Hm, Hl.
    destruct c; cbn; repeat split; try discriminate; intros H; try discriminate H;
      intros c'; reflexivity.
  - intros c s Hm. unfold _load_model. rewrite Hm. reflexivity.
Qed.

Lemma C6_witness :
  model init = None /\ loading init = false /\
  (let '(r, s', ev) := _load_model true false init in
   ev = [LoadAttempt] /\ r = false /\ loading s' = false /\
   (false = true -> model s' <> None /\
      forall c', _load_model true c' s' = (true, s', []))).
Proof.
  split; [reflexivity | split; [reflexivity |]].
  exact (proj1 (proj2 C6_failed_load_retried_when_library_available) false init
           eq_refl eq_refl).
Defined.



End GuardProofs.

(** ** Per-item processing: the output file *)

Lemma rsplit_char_last : forall d a b,
  rsplit_char d b = None -> rsplit_char d (a ++ String d b) = Some (a, b).
Proof.
  intros d a b Hb. induction a as [|c a IH]; cbn.
  - rewrite Hb, Ascii.eqb_refl. reflexivity.
  - rewrite IH. reflexivity.
Qed.


Section ItemEffects.
Variable enc : ascii -> bool.
Variable avail : bool.

Lemma whisper_transcribe_inv : forall env p w w' r,
  whisper_transcribe avail env p w = (w', r) ->
  exists s' o e, w' = set_svc s' w /\ r = Ok (o, e) /\
    (o = None \/ exists texts, env_inference env = FastWhisper.Segments texts /\
                               o = Some (strip (FastWhisper.collect texts))).
Proof.
  unfold whisper_transcribe, FastWhisper.transcribe; intros env p w w' r H.
  destruct (FastWhisper._load_model _ _ _) as [[ok s1] ev].
  destruct (negb ok).
  - inversion H; subst. do 3 eexists. split; [reflexivity | split; [reflexivity | left; reflexivity]].
  - destruct (env_inference env) as [texts | msg] eqn:Ei; inversion H; subst;
      do 3 eexists; (split; [reflexivity | split; [reflexivity |]]).
    + right. exists texts. split; reflexivity.
    + left. reflexivity.
Qed.

Lemma save_inv : forall env fp t od w w' r,
  _save_transcription enc env fp t od w = (w', r) ->
  (w' = w /\ r <> Ok tt) \/
  w' = set_fs (write_file (output_path_of fp od) (transcription_content fp (env_now env) t)
                          (fs w)) w.
Proof.
  unfold _save_transcription, bind, modify, raise; intros env fp t od w w' r H.
  destruct (negb (env_open_ok env)).
  - inversion H; subst. left. split; [reflexivity | discriminate].
  - destruct (print enc _ _) as [w2 r2] eqn:E; apply print_inv in E as [-> _].
    inversion H; subst. right. reflexivity.
Qed.
End ItemEffects.



(** ** The worker loop *)

Section Printing.
Variable enc : ascii -> bool.



Hypothesis Hdigits : stdout_ok enc "0123456789." = true.



End Printing.

Lemma print_cases : forall enc msg w w' r,
  print enc msg w = (w', r) ->
  w' = w /\ ((stdout_ok enc (msg ++ nl) = true /\ r = Ok tt) \/
             (stdout_ok enc (msg ++ nl) = false /\ r = Raise UnicodeEncodeError)).
Proof.
  unfold print, ret, raise; intros enc msg w w' r H.
  destruct (stdout_ok enc (msg ++ nl)); inversion H; subst; auto.
Qed.

Ltac inv_loop_effects :=
  repeat match goal with
  | H : print _ _ _ = (_, _) |- _ =>
      apply print_cases in H; destruct H as [? [[? ?] | [? ?]]]; subst
  | H : convert_to_wav _ _ _ = (_, _) |- _ => apply convert_inv in H; subst
  | H : whisper_transcribe _ _ _ _ = (_, _) |- _ =>
      apply whisper_transcribe_inv in H;
      let s := fresh "s" in let o := fresh "o" in let e := fresh "e" in
      let Ho := fresh "Ho" in
      destruct H as [s [o [e [? [? Ho]]]]]; subst
  | H : _save_transcription _ _ _ _ _ _ = (_, _) |- _ =>
      apply save_inv in H; destruct H as [[? ?] | ?]; subst
  | H : raise _ _ = _ |- _ => unfold raise in H
  | H : ret _ _ = _ |- _ => unfold ret in H
  | H : get_world _ = _ |- _ => unfold get_world in H
  | H : (_, _) = (_, _) |- _ => inversion H; clear H; subst
  | H : Ok _ = Raise _ |- _ => discriminate H
  | H : Raise _ = Ok _ |- _ => discriminate H
  | H : Ok _ = Ok _ |- _ => inversion H; clear H; subst
  | H : Raise _ = Raise _ |- _ => inversion H; clear H; subst
  end.




(** The spec's scenario: five queued items, items 2 and 4 fail conversion;
    all five are processed, three succeed, two fail, and the worker is
    still running. *)
Example five_items_two_conversion_failures :
  let '(w', r) := _process_queue utf8_stdout true five_outside 5 (running_world five_items) in
  r = Ok tt /\ queue (proc w') = [] /\ is_running (proc w') = true /\
  total_processed (stats (proc w')) = 5%nat /\
  successful_processed (stats (proc w')) = 3%nat /\
  failed_processed (stats (proc w')) = 2%nat.
Proof. vm_compute. repeat split. Qed.

(** ** Stop and restart *)

Lemma worker_iteration_pops : forall enc avail outside w it rest,
  queue (proc w) = it :: rest ->
  queue (proc (fst (worker_iteration enc avail outside w))) = rest.
Proof.
  intros enc avail outside w it rest Hq.
  unfold worker_iteration, _process_file, try_finally, try_except, bind, modify, get_world.
  rewrite Hq.
  split_all; inv_loop_effects; cbn; reflexivity.
Qed.

(** C10: [stop()] only clears the running flag: the pending items (in
    order), the statistics, the shared service and the file system are
    unchanged.  A later [start()] sets the flag again without touching the
    queue or the statistics, and the worker's next pass takes the oldest
    pending item first. *)
Theorem C10_stop_keeps_pending_items_and_stats :
  forall enc avail outside w,
  let '(w1, _) := stop enc w in
  queue (proc w1) = queue (proc w) /\ stats (proc w1) = stats (proc w) /\
  is_running (proc w1) = false /\ svc w1 = svc w /\ fs w1 = fs w /\
  let '(w2, _) := start enc w1 in
  queue (proc w2) = queue (proc w) /\ stats (proc w2) = stats (proc w) /\
  is_running (proc w2) = true /\
  forall it rest, queue (proc w) = it :: rest ->
    queue (proc (fst (_process_queue enc avail outside 1 w2))) = rest.
Proof.
  intros enc avail outside w.
  unfold stop, bind at 1, modify at 1.
  destruct (print enc _ _) as [w1 r1] eqn:E1. apply print_inv in E1 as [-> _].
  cbn. repeat (split; [reflexivity |]).
  destruct (print enc _ _) as [w2 r2] eqn:E2. apply print_inv in E2 as [-> _].
  cbn. repeat (split; [reflexivity |]).
  intros it rest Hq.
  unfold bind.
  match goal with
  | |- context [worker_iteration enc avail outside ?v] =>
      pose proof (worker_iteration_pops enc avail outside v it rest Hq) as Hp;
      destruct (worker_iteration enc avail outside v) as [w3 r3]
  end.
  cbn in Hp. destruct r3; cbn; exact Hp.
Qed.

Lemma C10_witness :
  let '(w1, _) := stop utf8_stdout (running_world five_items) in
  let '(w2, _) := start utf8_stdout w1 in
  queue (proc (fst (_process_queue utf8_stdout true five_outside 1 w2))) = tl five_items.
Proof.
  pose proof (C10_stop_keeps_pending_items_and_stats utf8_stdout true five_outside
                (running_world five_items)) as H.
  destruct (stop utf8_stdout (running_world five_items)) as [w1 r1].
  destruct H as [_ [_ [_ [_ [_ H]]]]].
  destruct (start utf8_stdout w1) as [w2 r2].
  destruct H as [_ [_ [_ H]]].
  exact (H (item "/in/1.wav") (tl five_items) eq_refl).
Defined.


(** The spec's output scenario: [speech.wav] into [/out] gives exactly
    [/out/speech_transcription.txt], whose first line starts with
    [Source:] and whose text after the separator and the empty line is the
    stripped transcription. *)
Example speech_wav_output :
  let '(w', r) := _process_file utf8_stdout true (fun _ => env_ok) (item "/in/speech.wav")
                                (running_world []) in
  r = Ok tt /\ successful_processed (stats (proc w')) = 1%nat /\
  fs_files (fs w') =
    [("/out/speech_transcription.txt",
      "Source: /in/speech.wav" ++ nl ++ "Processed: 2026-01-01 12:00:00" ++ nl ++
      "Service: Faster-Whisper Queue Processor" ++ nl ++ repeat_str "=" 60 ++ nl ++ nl ++
      "Hello  world")].
Proof. vm_compute. repeat split. Qed.

(** ** Further properties of the queue processor *)

Lemma drain_nil : forall q, drain q = [].
Proof. induction q as [|x q IH]; [reflexivity | exact IH]. Qed.

(** [clear_queue()] empties the queue and sets the reported queue size to
    0; the counters, the accumulated time, the running flag, the shared
    service and the file system are unchanged, and the only exception it
    can raise is the encoding error of its message. *)
Theorem clear_queue_empties : forall enc w,
  let '(w', r) := clear_queue enc w in
  queue (proc w') = [] /\ queue_size (stats (proc w')) = 0%nat /\
  total_processed (stats (proc w')) = total_processed (stats (proc w)) /\
  successful_processed (stats (proc w')) = successful_processed (stats (proc w)) /\
  failed_processed (stats (proc w')) = failed_processed (stats (proc w)) /\
  total_time (stats (proc w')) = total_time (stats (proc w)) /\
  is_running (proc w') = is_running (proc w) /\ svc w' = svc w /\ fs w' = fs w /\
  (r = Ok tt \/ r = Raise UnicodeEncodeError).
Proof.
  intros enc w. unfold clear_queue, bind, modify.
  destruct (print enc _ _) as [w1 r1] eqn:E.
  apply print_inv in E as [-> Hr].
  cbn. rewrite drain_nil. repeat split; try reflexivity. exact Hr.
Qed.



Lemma suffix_last_dot : forall b e, rsplit_char dot e = None ->
  suffix (b ++ String "." e) =
  if negb (String.eqb b "") && negb (String.eqb e "") then String "." e else "".
Proof.
  intros b e He. unfold suffix.
  change (String "." e) with (String dot e). rewrite (rsplit_char_last dot b e He). reflexivity.
Qed.

(** Extension matching ignores case and follows [Path(file).suffix]: a
    file [b.e] ([e] without a dot) is found exactly when [b] is not empty
    and [.e], lower-cased, is a supported extension; a dot file such as
    [.wav] is not an audio file. *)
Theorem find_audio_files_extension_rule : forall f d root b e,
  fs_walk f d = [(root, [b ++ String "." e])] ->
  rsplit_char dot e = None ->
  _find_audio_files f d =
  if negb (String.eqb b "") && existsb (String.eqb (String "." (lower e))) supported_extensions
  then [join root (b ++ String "." e)] else [].
Proof.
  intros f d root b e Hw He. unfold _find_audio_files. rewrite Hw. cbn [fold_left].
  rewrite (suffix_last_dot b e He).
  destruct (String.eqb b "") eqn:Hb; cbn [negb andb].
  - reflexivity.
  - destruct e as [|c e']; [reflexivity|]. cbn [String.eqb negb andb lower].
    reflexivity.
Qed.

Lemma find_audio_files_extension_rule_witness :
  _find_audio_files fs_rec "/rec" = ["/rec/SPEECH.WAV"].
Proof.
  exact (find_audio_files_extension_rule fs_rec "/rec" "/rec" "SPEECH" "WAV" eq_refl eq_refl).
Defined.










(** The worker loop does nothing, and returns normally, while the queue is
    empty or the processor is not running. *)
Theorem process_queue_idle : forall enc avail outside n w,
  queue (proc w) = [] \/ is_running (proc w) = false ->
  _process_queue enc avail outside n w = (w, Ok tt).
Proof.
  intros enc avail outside n. induction n as [|n IH]; intros w H; [reflexivity|].
  cbn [_process_queue]. unfold bind at 1, get_world.
  destruct (is_running (proc w)) eqn:Er; cbn [negb]; [|reflexivity].
  destruct H as [Hq | Hr]; [|congruence].
  unfold bind. unfold worker_iteration, try_except, bind, get_world. rewrite Hq.
  unfold ret. apply IH. left. exact Hq.
Qed.

Lemma process_queue_idle_witness :
  _process_queue utf8_stdout true five_outside 5 (stopped_world five_items)
  = (stopped_world five_items, Ok tt).
Proof.
  exact (process_queue_idle utf8_stdout true five_outside 5 (stopped_world five_items)
           (or_intror eq_refl)).
Defined.

Lemma process_file_escapes_only_encoding : forall enc avail outside it w,
  snd (_process_file enc avail outside it w) = Ok tt \/
  snd (_process_file enc avail outside it w) = Raise UnicodeEncodeError.
Proof.
  intros enc avail outside it w.
  unfold _process_file, try_finally, try_except, bind, modify.
  split_all; inv_effects; cbn; auto.
Qed.

(** One [_process_file] call keeps [successful + failed - total] fixed
    (whatever happens, also when an exception escapes), clears
    [current_file], does not touch the queue, the reported queue size or
    the running flag, and can only let an encoding error of a message
    escape. *)
Theorem process_file_balances_counters : forall enc avail outside it w,
  let '(w', r) := _process_file enc avail outside it w in
  (r = Ok tt \/ r = Raise UnicodeEncodeError) /\
  (successful_processed (stats (proc w')) + failed_processed (stats (proc w'))
     + total_processed (stats (proc w)) =
   successful_processed (stats (proc w)) + failed_processed (stats (proc w))
     + total_processed (stats (proc w')))%nat /\
  current_file (stats (proc w')) = None /\
  queue (proc w') = queue (proc w) /\
  queue_size (stats (proc w')) = queue_size (stats (proc w)) /\
  is_running (proc w') = is_running (proc w).
Proof.
  intros enc avail outside it w.
  pose proof (process_file_escapes_only_encoding enc avail outside it w) as Hr.
  destruct (_process_file enc avail outside it w) as [w' r] eqn:E. cbn in Hr.
  split; [exact Hr|]. clear Hr.
  revert E. unfold _process_file, try_finally, try_except, bind, modify. intros E.
  split_all; inv_effects; cbn in *;
  repeat match goal with H : proc ?x = _ |- _ => rewrite H in *; clear H end; cbn in *;
  repeat split; lia.
Qed.

Lemma worker_iteration_returns : forall enc avail outside w,
  stdout_ok enc (("❌ Error in queue processing: " ++ str_exn UnicodeEncodeError) ++ nl) = true ->
  snd (worker_iteration enc avail outside w) = Ok tt.
Proof.
  intros enc avail outside w Hmsg.
  unfold worker_iteration, try_except, bind at 1, get_world.
  destruct (queue (proc w)) as [|it rest]; [reflexivity|].
  unfold bind at 1 2, modify.
  pose proof (process_file_escapes_only_encoding enc avail outside it
                (update_queue_size (set_proc (set_queue rest (proc w)) w))) as Hr.
  destruct (_process_file _ _ _ _ _) as [w1 r1]. cbn in Hr.
  destruct Hr as [-> | ->]; [reflexivity|].
  unfold bind, print, modify. rewrite Hmsg. reflexivity.
Qed.

(** If standard output can print the worker's error message for the
    encoding error, the worker loop always returns normally: no exception
    of an item ever ends it. *)
Theorem worker_survives_when_handler_message_printable : forall enc avail outside n w,
  stdout_ok enc (("❌ Error in queue processing: " ++ str_exn UnicodeEncodeError) ++ nl) = true ->
  snd (_process_queue enc avail outside n w) = Ok tt.
Proof.
  intros enc avail outside n. induction n as [|n IH]; intros w Hmsg; [reflexivity|].
  cbn [_process_queue]. unfold bind at 1, get_world.
  destruct (negb (is_running (proc w))); [reflexivity|].
  unfold bind.
  pose proof (worker_iteration_returns enc avail outside w Hmsg) as Hw.
  destruct (worker_iteration enc avail outside w) as [w1 r1]. cbn in Hw. subst r1.
  exact (IH w1 Hmsg).
Qed.

Lemma worker_survives_when_handler_message_printable_witness :
  snd (_process_queue utf8_stdout true five_outside 7 (running_world five_items)) = Ok tt.
Proof.
  exact (worker_survives_when_handler_message_printable utf8_stdout true five_outside 7
           (running_world five_items) eq_refl).
Defined.

(** [start()] sets the running flag without touching the queue or the
    statistics, and a second [start()] changes nothing and prints
    nothing. *)
Theorem start_is_idempotent : forall enc w,
  let '(w1, _) := start enc w in
  is_running (proc w1) = true /\
  queue (proc w1) = queue (proc w) /\ stats (proc w1) = stats (proc w) /\
  start enc w1 = (w1, Ok tt).
Proof.
  intros enc w. unfold start at 1, bind at 1, get_world.
  destruct (is_running (proc w)) eqn:Er.
  - unfold ret. repeat split; try assumption.
    unfold start, bind, get_world. rewrite Er. reflexivity.
  - unfold bind, modify.
    destruct (print enc _ _) as [w1 r1] eqn:E. apply print_inv in E as [-> _].
    cbn. repeat split.
Qed.

(** ** Further properties of the model service *)

Module WhisperProps.
Import FastWhisper.

(** The service keeps [average_time = total_time / total_processed]
    (0 while nothing was processed): true initially and preserved by every
    [transcribe] call, successful, failing or without a model. *)
Theorem average_time_invariant :
  let inv := fun s : Service =>
    average_time (stats s) =
      if (total_processed (stats s) =? 0)%nat then 0
      else qdiv_nat (total_time (stats s)) (total_processed (stats s)) in
  inv init /\
  forall available ctor_ok inf t0 t1 s, inv s ->
    let '(_, s', _) := transcribe available ctor_ok inf t0 t1 s in inv s'.
Proof.
  intros inv. split; [reflexivity|].
  intros available ctor_ok inf t0 t1 s Hs.
  pose proof (GuardProofs.load_model_keeps_stats available ctor_ok s) as Hst.
  unfold transcribe.
  destruct (_load_model available ctor_ok s) as [[ok s1] ev]. cbn in Hst.
  destruct (negb ok); [unfold inv; rewrite Hst; exact Hs|].
  destruct inf as [texts | msg]; unfold inv in *; cbn; [reflexivity|].
  rewrite Hst. exact Hs.
Qed.

Lemma average_time_invariant_witness :
  let s := snd (fst (transcribe true true (Segments [" a"]) 0 2 init)) in
  average_time (stats s) = qdiv_nat (total_time (stats s)) 1.
Proof.
  pose proof average_time_invariant as H. cbv beta zeta in H. destruct H as [H0 H1].
  exact (H1 true true (Segments [" a"]) 0 2 init H0).
Defined.

(** [transcribe] returns exactly one of a text and an error message; when
    the model cannot be loaded the error is ["Model not available"] and
    the statistics are unchanged. *)
Theorem transcribe_reports_text_or_error : forall available ctor_ok inf t0 t1 s,
  let '(r, s', _) := transcribe available ctor_ok inf t0 t1 s in
  ((exists text, r = (Some text, None)) \/ (exists err, r = (None, Some err))) /\
  (fst (fst (_load_model available ctor_ok s)) = false ->
     r = (None, Some "Model not available") /\ stats s' = stats s).
Proof.
  intros available ctor_ok inf t0 t1 s.
  pose proof (GuardProofs.load_model_keeps_stats available ctor_ok s) as Hst.
  unfold transcribe.
  destruct (_load_model available ctor_ok s) as [[ok s1] ev]. cbn in Hst |- *.
  destruct ok; cbn.
  - destruct inf as [texts | msg]; cbn; (split; [| discriminate]).
    + left. eexists; reflexivity.
    + right. eexists; reflexivity.
  - split; [right; eexists; reflexivity | intros _; split; [reflexivity | exact Hst]].
Qed.

Lemma transcribe_reports_text_or_error_witness :
  fst (fst (transcribe false true (Segments [" a"]) 0 1 init)) = (None, Some "Model not available").
Proof.
  pose proof (transcribe_reports_text_or_error false true (Segments [" a"]) 0 1 init) as H.
  exact (proj1 (proj2 H eq_refl)).
Defined.

(** [is_ready()] answers whether a model is loaded after the call, never
    changes the statistics, calls the model constructor only when no
    model was loaded and the library is available, and once it answers
    [True] every later call answers [True] without any effect. *)
Theorem is_ready_reflects_model : forall available c s,
  let '(b, s', ev) := is_ready available c s in
  (b = true <-> model s' <> None) /\
  stats s' = stats s /\
  (ev <> [] -> model s = None /\ available = true) /\
  (b = true -> forall a' c', is_ready a' c' s' = (true, s', [])).
Proof.
  intros available c s. unfold is_ready.
  destruct (model s) as [m|] eqn:Em.
  - rewrite Em. repeat split; try discriminate; try congruence;
      try (intros _ a' c'; rewrite Em; reflexivity).
  - unfold _load_model. rewrite Em.
    destruct available; cbn [negb].
    + destruct (loading s); cbn.
      * rewrite Em. repeat split; try discriminate; try congruence.
      * destruct c; cbn; repeat split; try discriminate; try congruence;
          try (intros _ a' c'; reflexivity).
    + cbn. rewrite Em. repeat split; try discriminate; try congruence.
Qed.

Lemma is_ready_reflects_model_witness :
  let '(b, s', _) := is_ready true true init in
  b = true /\ is_ready false false s' = (true, s', []).
Proof.
  pose proof (is_ready_reflects_model true true init) as H.
  exact (conj eq_refl (proj2 (proj2 (proj2 H)) eq_refl false false)).
Defined.
End WhisperProps.

(** ** Properties of the HTTP endpoints *)

Module HttpProps.
Import App.

(** The [/transcribe] endpoint never returns a response: every request
    counts as total and failed (never successful) and ends in an HTTP 500
    ["Internal server error: ..."] or in an encoding error of a print. *)
Theorem transcribe_endpoint_never_succeeds : forall enc avail env file client seg lang aw,
  let '(aw', r) := transcribe_endpoint enc avail env file client seg lang aw in
  total_requests (service_stats aw') = S (total_requests (service_stats aw)) /\
  failed_requests (service_stats aw') = S (failed_requests (service_stats aw)) /\
  successful_requests (service_stats aw') = successful_requests (service_stats aw) /\
  ((exists msg, r = ARaise (HTTPException 500 ("Internal server error: " ++ msg)))
   \/ r = ARaise (PyExn UnicodeEncodeError)).
Proof.
  intros enc avail env file client seg lang aw.
  unfold transcribe_endpoint, handle_file_upload, call_transcribe_audio, makedirs, FQP.makedirs,
    try_except, bind, modify, print, ret, raise.
  cbv beta iota zeta.
  split_all; cbn in *;
  repeat match goal with
  | H : raise _ _ = _ |- _ => unfold raise in H
  | H : (_, _) = (_, _) |- _ => inversion H; clear H; subst
  | H : AOk _ = ARaise _ |- _ => discriminate H
  | H : ARaise _ = AOk _ |- _ => discriminate H
  | H : ARaise _ = ARaise _ |- _ => inversion H; clear H; subst
  | H : AOk _ = AOk _ |- _ => inversion H; clear H; subst
  end; cbn;
  repeat split; first [left; eexists; reflexivity | right; reflexivity].
Qed.




(** [/health] calls [is_ready()] twice: with no model loaded and the
    library available, a failing first load and a succeeding second one
    give status ["unhealthy"] with [model_ready] true, and two constructor
    calls; a succeeding first load gives ["healthy"] with one call. *)
Theorem health_check_double_load : forall c2 now aw,
  FastWhisper.model (whisper_service aw) = None ->
  FastWhisper.loading (whisper_service aw) = false ->
  (let '(aw', r) := health_check true false c2 now aw in
   (exists h, r = AOk h /\ h_status h = "unhealthy" /\ h_model_ready h = c2 /\
              FastWhisper.model_loaded (h_whisper_stats h) = c2) /\
   service_events aw' = (service_events aw ++ [FastWhisper.LoadAttempt; FastWhisper.LoadAttempt])%list)
  /\
  (let '(aw', r) := health_check true true c2 now aw in
   (exists h, r = AOk h /\ h_status h = "healthy" /\ h_model_ready h = true) /\
   service_events aw' = (service_events aw ++ [FastWhisper.LoadAttempt])%list).
Proof.
  intros c2 now aw Hm Hl.
  unfold health_check, is_ready, bind, get, ret, FastWhisper.is_ready, FastWhisper._load_model.
  rewrite Hm, Hl. cbn.
  destruct c2; cbn; rewrite <- !app_assoc;
    (split; [split; [eexists; repeat split | reflexivity] | split; [eexists; repeat split | reflexivity]]).
Qed.

Lemma health_check_double_load_witness :
  exists h, snd (health_check true false true 0 app_world0) = AOk h /\
            h_status h = "unhealthy" /\ h_model_ready h = true.
Proof.
  destruct (health_check_double_load true 0 app_world0 eq_refl eq_refl) as [H _].
  destruct (proj1 H) as [h [Hr [Hs [Hm _]]]].
  exists h. split; [exact Hr | split; [exact Hs | exact Hm]].
Defined.

Ltac inv_app :=
  repeat match goal with
  | H : (_, _) = (_, _) |- _ => inversion H; clear H; subst
  | H : Some _ = Some _ |- _ => inversion H; clear H; subst
  | H : None = Some _ |- _ => discriminate H
  | H : Some _ = None |- _ => discriminate H
  | H : AOk _ = ARaise _ |- _ => discriminate H
  | H : ARaise _ = AOk _ |- _ => discriminate H
  | H : AOk _ = AOk _ |- _ => inversion H; clear H; subst
  | H : ARaise _ = ARaise _ |- _ => inversion H; clear H; subst
  end.

(** Before startup the queue endpoints answer HTTP 503 without effect;
    after a startup that returns normally, the model is loaded exactly
    when the library is available and the constructor succeeds, and
    [/queue/status] reports a running, empty processor. *)
Theorem startup_enables_queue_endpoints : forall enc avail c od_env t src od aw,
  file_queue_processor aw = None ->
  FastWhisper.model (whisper_service aw) = None ->
  FastWhisper.loading (whisper_service aw) = false ->
  add_to_queue enc t src od aw = (aw, ARaise (HTTPException 503 "File queue processor not available")) /\
  get_queue_status aw = (aw, ARaise (HTTPException 503 "File queue processor not available")) /\
  let '(aw1, r1) := startup_event enc avail c od_env aw in
  r1 = AOk tt ->
  (FastWhisper.model (whisper_service aw1) <> None <-> avail && c = true) /\
  exists snap, get_queue_status aw1 = (aw1, AOk snap) /\
    snap_is_running snap = true /\ snap_queue_size snap = 0%nat /\
    snap_total_processed snap = 0%nat /\ snap_current_file snap = None.
Proof.
  intros enc avail c od_env t src od aw Hp Hm Hl.
  split; [unfold add_to_queue, bind, get; rewrite Hp; reflexivity|].
  split; [unfold get_queue_status, bind, get; rewrite Hp; reflexivity|].
  destruct avail, c;
  unfold startup_event, is_ready, on_fqp, FQP.start, FQP.print,
    FQP.bind, FQP.get_world, FQP.modify, FQP.ret, FQP.raise,
    print, bind, modify, ret, raise;
  unfold FastWhisper.is_ready, FastWhisper._load_model, set_processor, set_service,
    FQP.init_processor;
  cbv beta iota zeta;
  rewrite ?Hm; cbn [negb];
  split_all; cbn in *; inv_app; cbn in *; try congruence; intros Hr; inv_app; try congruence;
  rewrite ?Hm;
  (split; [split; intros; first [congruence | reflexivity | discriminate] |
           eexists; split; [reflexivity | repeat split]]).
Qed.

Lemma startup_enables_queue_endpoints_witness :
  let '(aw1, r1) := startup_event utf8_stdout true true None app_world0 in
  r1 = AOk tt /\ FastWhisper.model (whisper_service aw1) <> None /\
  exists snap, get_queue_status aw1 = (aw1, AOk snap) /\ snap_is_running snap = true.
Proof.
  pose proof (startup_enables_queue_endpoints utf8_stdout true true None 0 "/rec" None app_world0
                eq_refl eq_refl eq_refl) as [_ [_ H]].
  specialize (H eq_refl).
  destruct H as [Hm [snap [Hq [Hrun _]]]].
  split; [reflexivity | split; [exact (proj2 Hm eq_refl) | exists snap; split; [exact Hq | exact Hrun]]].
Defined.






(** [transformer.transcribe_audio] returns [(None, "Failed to convert
    audio to WAV format")] without touching the service when conversion
    gives nothing; when the model is usable and inference raises with an
    empty message, it returns [(None, None)] (no text and no error) and
    the service counts one error. *)
Theorem transcribe_audio_edge_outcomes : forall enc avail env v aw,
  (req_conversion env = FQP.ConversionNone ->
   transcribe_audio enc avail env v aw
   = (aw, AOk (None, Some "Failed to convert audio to WAV format")))
  /\
  (forall wav, req_conversion env = FQP.Converted wav ->
   req_inference env = FastWhisper.InferenceRaises "" ->
   fst (fst (FastWhisper._load_model avail (req_ctor_ok env) (whisper_service aw))) = true ->
   let '(aw', r) := transcribe_audio enc avail env v aw in
   r = AOk (None, None) /\
   FastWhisper.errors (FastWhisper.stats (whisper_service aw'))
     = S (FastWhisper.errors (FastWhisper.stats (whisper_service aw)))).
Proof.
  intros enc avail env v aw. split.
  - intros Hc. unfold transcribe_audio, try_except, bind, convert_to_wav. rewrite Hc. reflexivity.
  - intros wav Hc Hi Hok.
    pose proof (GuardProofs.load_model_keeps_stats avail (req_ctor_ok env) (whisper_service aw)) as Hst.
    unfold transcribe_audio, try_except, bind, convert_to_wav. rewrite Hc.
    unfold ret at 1, whisper_transcribe, FastWhisper.transcribe. rewrite Hi.
    destruct (FastWhisper._load_model _ _ _) as [[ok s1] ev]. cbn in Hok, Hst. subst ok.
    cbn. rewrite Hst. split; reflexivity.
Qed.

Lemma transcribe_audio_edge_outcomes_witness :
  transcribe_audio utf8_stdout true req_env_no_wav (PStr "uploads/clip.ogg") app_world0
  = (app_world0, AOk (None, Some "Failed to convert audio to WAV format")) /\
  snd (transcribe_audio utf8_stdout true req_env_silent_error (PStr "uploads/clip.ogg") app_world0)
  = AOk (None, None).
Proof.
  split.
  - exact (proj1 (transcribe_audio_edge_outcomes utf8_stdout true req_env_no_wav
                    (PStr "uploads/clip.ogg") app_world0) eq_refl).
  - exact (proj1 (proj2 (transcribe_audio_edge_outcomes utf8_stdout true req_env_silent_error
                           (PStr "uploads/clip.ogg") app_world0) "/tmp/clip.wav" eq_refl eq_refl
                           eq_refl)).
Defined.
End HttpProps.
